(** * CosineAnnealingWarmRestarts: the learning-rate scheduler component

    A shallow embedding of
    [autoPyTorch/pipeline/components/setup/lr_scheduler/CosineAnnealingWarmRestarts.py]
    and the properties its specification states about it.

    Python objects live in a store and are named by references, so that
    "returns self" and "mutates only the scheduler field" are statements
    about the store.  Exceptions are values of a sum type; a raised
    exception leaves the store as it was at the raise. *)

From Stdlib Require Import ZArith Lia SpecFloat.
From stdpp Require Import base option list gmap strings.

Local Open Scope Z_scope.

(** ** Exceptions and results *)

Inductive exn :=
  | ValueError
  | TypeError
  | OverflowError
  | KeyError
  | AttributeError
  | MissingDependencyError
  | InvalidRangeError
  | LibraryError (msg : string).

Definition result (A : Type) : Type := exn + A.

Definition ok {A : Type} (a : A) : result A := inr a.
Definition raise {A : Type} (e : exn) : result A := inl e.

Definition is_ok {A : Type} (r : result A) : bool :=
  match r with inr _ => true | inl _ => false end.

(** ** Python values *)

(** A Python number: an [int] (unbounded) or a [float] (IEEE 754 binary64,
    in the Standard Library's specification format). *)
Inductive number :=
  | NInt (n : Z)
  | NFloat (f : spec_float).

(** The [Any] values a dependency dictionary may hold.  [VOptimizer] is a
    reference to an instance of [torch.optim.Optimizer]; [VObject] is a
    reference to an object of any other class. *)
Inductive value :=
  | VNone
  | VBool (b : bool)
  | VNum (n : number)
  | VStr (s : string)
  | VOptimizer (id : positive)
  | VObject (id : positive).

(** binary64: 53 bits of precision, infinities at exponent 1024. *)
Definition is_binary64 (f : spec_float) : bool := valid_binary 53 1024 f.

Definition float_1_0 : spec_float := S754_finite false 4503599627370496 (-52).
Definition float_2_0 : spec_float := S754_finite false 4503599627370496 (-51).

(** Python's [<=] and [<] on floats. *)
Definition float_le (a b : spec_float) : bool := SFleb a b.
Definition float_lt (a b : spec_float) : bool := SFltb a b.

(** The builtin [int(x)] on a number: the identity on an [int]; on a
    [float] the exact truncation toward zero, [ValueError] on NaN and
    [OverflowError] on an infinity. *)
Definition py_int (x : number) : result Z :=
  match x with
  | NInt n => ok n
  | NFloat S754_nan => raise ValueError
  | NFloat (S754_infinity _) => raise OverflowError
  | NFloat (S754_zero _) => ok 0
  | NFloat (S754_finite s m e) =>
      let magnitude := Z.shiftl (Z.pos m) e in
      ok (if s then - magnitude else magnitude)
  end.

(** ** The search-space library (ConfigSpace) *)

Inductive Hyperparameter :=
  | UniformInteger (name : string) (lower upper default_value : Z)
  | UniformFloat (name : string) (lower upper default_value : spec_float).

Definition hp_name (h : Hyperparameter) : string :=
  match h with
  | UniformInteger n _ _ _ => n
  | UniformFloat n _ _ _ => n
  end.

(** A configuration space holds its hyperparameters in insertion order. *)
Definition ConfigurationSpace : Type := list Hyperparameter.

Definition int_range_invalid (lower upper default_value : Z) : bool :=
  (upper <? lower) || negb ((lower <=? default_value) && (default_value <=? upper)).

Definition float_range_invalid (lower upper default_value : spec_float) : bool :=
  float_lt upper lower
  || negb (float_le lower default_value && float_le default_value upper).

(** Modelled from the spec: the constructor of ConfigSpace's
    [UniformIntegerHyperparameter] is not under src/; the spec gives its
    contract as "fail with an InvalidRangeError if low > high or default
    outside [low, high]". *)
Definition UniformIntegerHyperparameter
    (name : string) (lower upper default_value : Z) : result Hyperparameter :=
  if int_range_invalid lower upper default_value
  then raise InvalidRangeError
  else ok (UniformInteger name lower upper default_value).

(** Modelled from the spec: the constructor of ConfigSpace's
    [UniformFloatHyperparameter] is not under src/; same contract as the
    integer one, with Python's float comparisons. *)
Definition UniformFloatHyperparameter
    (name : string) (lower upper default_value : spec_float) : result Hyperparameter :=
  if float_range_invalid lower upper default_value
  then raise InvalidRangeError
  else ok (UniformFloat name lower upper default_value).

(** Modelled from the spec: [ConfigurationSpace.add_hyperparameters] is not
    under src/; it packages the hyperparameters into the container, one
    after the other, and refuses a name the container already holds. *)
Fixpoint add_hyperparameters
    (cs : ConfigurationSpace) (hps : list Hyperparameter) : result ConfigurationSpace :=
  match hps with
  | [] => ok cs
  | h :: rest =>
      if bool_decide (hp_name h ∈ map hp_name cs)
      then raise ValueError
      else add_hyperparameters (cs ++ [h]) rest
  end.

(** ** The store *)

(** Object references. *)
Definition loc : Type := positive.

Section Component.

(** The schedule objects of the numerical library and the constructor
    [torch.optim.lr_scheduler.CosineAnnealingWarmRestarts(optimizer, T_0,
    T_mult)].  The library is an external collaborator: nothing is
    assumed about which arguments its constructor accepts. *)
Context {Schedule : Type}.
Variable torch_CosineAnnealingWarmRestarts : value -> Z -> Z -> result Schedule.

(** The attributes [__init__] gives an instance. *)
Record CosineAnnealingWarmRestarts := mkComponent {
  T_0 : number;
  T_mult : number;
  random_state : value;
  scheduler : option Schedule
}.

(** The world a method runs in: the instances by reference, and the file
    system, which stands for everything reachable by I/O. *)
Record world := mkWorld {
  heap : gmap loc CosineAnnealingWarmRestarts;
  files : gmap string string
}.

Definition set_heap (h : gmap loc CosineAnnealingWarmRestarts) (w : world) : world :=
  {| heap := h; files := files w |}.

Definition set_files (fs : gmap string string) (w : world) : world :=
  {| heap := heap w; files := fs |}.

(** Computations: state passing with exceptions. *)
Definition M (A : Type) : Type := world -> result A * world.

Definition ret {A : Type} (a : A) : M A := fun w => (ok a, w).

Definition throw {A : Type} (e : exn) : M A := fun w => (raise e, w).

Definition bind {A B : Type} (m : M A) (k : A -> M B) : M B :=
  fun w =>
    match m w with
    | (inl e, w') => (inl e, w')
    | (inr a, w') => k a w'
    end.

Definition lift {A : Type} (r : result A) : M A := fun w => (r, w).

Notation "x <- m ;; k" := (bind m (fun x => k))
  (at level 100, m at next level, right associativity).
Notation "m ;;; k" := (bind m (fun _ => k))
  (at level 100, right associativity).

(** [self.<attr>]: read an attribute of the instance at [self]. *)
Definition getattr {A : Type}
    (self : loc) (attr : CosineAnnealingWarmRestarts -> A) : M A :=
  fun w =>
    match heap w !! self with
    | Some c => (ok (attr c), w)
    | None => (raise AttributeError, w)
    end.

(** [self.scheduler = v]. *)
Definition setattr_scheduler (self : loc) (v : option Schedule) : M unit :=
  fun w =>
    match heap w !! self with
    | Some c =>
        (ok tt,
         set_heap (<[self := {| T_0 := T_0 c; T_mult := T_mult c;
                                random_state := random_state c;
                                scheduler := v |}]> (heap w)) w)
    | None => (raise AttributeError, w)
    end.

(** [X[key]] on a dictionary. *)
Definition getitem (X : gmap string value) (key : string) : M value :=
  match X !! key with
  | Some v => ret v
  | None => throw KeyError
  end.

(** [CosineAnnealingWarmRestarts(T_0, T_mult, random_state=None)]: a new
    object with the four attributes [__init__] assigns, the arguments
    stored as they come and [scheduler] set to [None].  The call of
    [super().__init__()] assigns none of the four. *)
Definition __init__ (T_0 T_mult : number) (random_state : option value) : M loc :=
  fun w =>
    let self := fresh (dom (heap w)) in
    (ok self,
     set_heap (<[self := {| T_0 := T_0; T_mult := T_mult;
                            random_state := default VNone random_state;
                            scheduler := None |}]> (heap w)) w).

(** Modelled from the spec: [check_requirements] is inherited from
    [BaseLRComponent] (base_scheduler.py), which is not under src/.  The
    spec: it "fails with a MissingDependencyError (or equivalent) if
    dependencies lacks a usable "optimizer" entry"; the component "only
    declares that it requires "optimizer"". *)
Definition check_requirements (self : loc) (X : gmap string value) (y : value) : M unit :=
  match X !! "optimizer" with
  | Some (VOptimizer _) => ret tt
  | _ => throw MissingDependencyError
  end.

(** [fit(self, X, y)]: check the requirements, then build the schedule
    from [X['optimizer']], [int(self.T_0)] and [int(self.T_mult)], the
    arguments evaluated left to right, assign it to [self.scheduler] and
    return [self]. *)
Definition fit (self : loc) (X : gmap string value) (y : value) : M loc :=
  check_requirements self X y ;;;
  optimizer <- getitem X "optimizer" ;;
  t0 <- getattr self T_0 ;;
  t0 <- lift (py_int t0) ;;
  tmult <- getattr self T_mult ;;
  tmult <- lift (py_int tmult) ;;
  sched <- lift (torch_CosineAnnealingWarmRestarts optimizer t0 tmult) ;;
  setattr_scheduler self (Some sched) ;;;
  ret self.

(** The statements of [fit] with the inherited requirement check left
    open: [fit] is [fit_after check_requirements]. *)
Definition fit_after (check : loc -> gmap string value -> value -> M unit)
    (self : loc) (X : gmap string value) (y : value) : M loc :=
  check self X y ;;;
  optimizer <- getitem X "optimizer" ;;
  t0 <- getattr self T_0 ;;
  t0 <- lift (py_int t0) ;;
  tmult <- getattr self T_mult ;;
  tmult <- lift (py_int tmult) ;;
  sched <- lift (torch_CosineAnnealingWarmRestarts optimizer t0 tmult) ;;
  setattr_scheduler self (Some sched) ;;;
  ret self.

(** The static method [get_properties(dataset_properties=None)]: a new
    dictionary with the three entries of the literal. *)
Definition get_properties (dataset_properties : option (gmap string value))
    : M (gmap string value) :=
  ret (<["cyclic" := VBool true]>
       (<["name" := VStr "Cosine Annealing WarmRestarts"]>
        (<["shortname" := VStr "CosineAnnealingWarmRestarts"]> ∅))).

(** The static method [get_hyperparameter_search_space].  An omitted
    argument is [None] here and stands for the default of the signature:
    [((1, 20), 1)] for [T_0] and [((1.0, 2.0), 1.0)] for [T_mult]. *)
Definition get_hyperparameter_search_space
    (dataset_properties : option (gmap string value))
    (T_0 : option ((Z * Z) * Z))
    (T_mult : option ((spec_float * spec_float) * spec_float))
    : M ConfigurationSpace :=
  let T_0 := default ((1, 20), 1) T_0 in
  let T_mult := default ((float_1_0, float_2_0), float_1_0) T_mult in
  T_0 <- lift (UniformIntegerHyperparameter
                 "T_0" (fst (fst T_0)) (snd (fst T_0)) (snd T_0)) ;;
  T_mult <- lift (UniformFloatHyperparameter
                    "T_mult" (fst (fst T_mult)) (snd (fst T_mult)) (snd T_mult)) ;;
  let cs : ConfigurationSpace := [] in
  cs <- lift (add_hyperparameters cs [T_0; T_mult]) ;;
  ret cs.

(** What [self.scheduler] reads in a world: [None] is Python's [None]. *)
Definition scheduler_of (self : loc) (w : world) : option Schedule :=
  match heap w !! self with
  | Some c => scheduler c
  | None => None
  end.

(** A caller that invokes [fit] on the same instance once per element of
    [calls], catching what each call raises, and keeps the outcomes. *)
Fixpoint fit_all (self : loc) (calls : list (gmap string value * value)) (w : world)
    : list (result loc) * world :=
  match calls with
  | [] => ([], w)
  | (X, y) :: rest =>
      let (r, w1) := fit self X y w in
      let (rs, w2) := fit_all self rest w1 in
      (r :: rs, w2)
  end.

(** The instance [c] with its [T_mult] attribute replaced. *)
Definition with_T_mult (v : number) (c : CosineAnnealingWarmRestarts)
    : CosineAnnealingWarmRestarts :=
  {| T_0 := T_0 c; T_mult := v; random_state := random_state c;
     scheduler := scheduler c |}.

(** The instance [c] with its [scheduler] attribute replaced. *)
Definition with_scheduler (v : option Schedule) (c : CosineAnnealingWarmRestarts)
    : CosineAnnealingWarmRestarts :=
  {| T_0 := T_0 c; T_mult := T_mult c; random_state := random_state c;
     scheduler := v |}.

End Component.

(** ** A schedule constructor to run the component with

    The numerical library is outside the repository.  To evaluate the
    component on concrete inputs the constructor is instantiated with the
    argument checks the library documents: [T_0] a positive integer,
    [T_mult] an integer at least 1, [optimizer] an [Optimizer].  The
    schedule it returns records the arguments it was built from. *)

Record TorchSchedule := mkSchedule {
  sched_optimizer : positive;
  sched_T_0 : Z;
  sched_T_mult : Z
}.

Definition torch_constructor (optimizer : value) (T_0 T_mult : Z) : result TorchSchedule :=
  if T_0 <=? 0 then raise ValueError
  else if T_mult <? 1 then raise ValueError
  else match optimizer with
       | VOptimizer o =>
           ok {| sched_optimizer := o; sched_T_0 := T_0; sched_T_mult := T_mult |}
       | _ => raise TypeError
       end.

(** The world with no instance and no file. *)
Definition empty_world : @world TorchSchedule := {| heap := ∅; files := ∅ |}.

(** A freshly constructed instance in the empty world. *)
Definition world_with (T_0 T_mult : number) : @world TorchSchedule :=
  snd (__init__ T_0 T_mult None empty_world).

Definition float_1_5 : spec_float := S754_finite false 6755399441055744 (-52).
Definition float_0_5 : spec_float := S754_finite false 4503599627370496 (-53).
Definition float_0_0 : spec_float := S754_zero false.

(** A hyperparameter value that is at least 1: an [int] at least 1, or a
    finite binary64 at least 1.0. *)
Definition at_least_one (x : number) : bool :=
  match x with
  | NInt n => 1 <=? n
  | NFloat v =>
      is_binary64 v && float_le float_1_0 v && float_lt v (S754_infinity false)
  end.

(** The instance [__init__] builds from [T_0] and [T_mult]. *)
Definition unfit (T_0 T_mult : number) : @CosineAnnealingWarmRestarts TorchSchedule :=
  {| T_0 := T_0; T_mult := T_mult; random_state := VNone; scheduler := None |}.

(** The dependency mapping [{"optimizer": <optimizer o>}]. *)
Definition deps (o : positive) : gmap string value := {["optimizer" := VOptimizer o]}.

(** A mapping whose "optimizer" entry is not an optimizer. *)
Definition bad_deps : gmap string value := {["optimizer" := VStr "sgd"]}.

(** * Properties *)

(** ** Truncation of a binary64 in [1.0, 2.0) *)

Lemma digits2_pos_bounds (m : positive) :
  2 ^ (Z.pos (digits2_pos m) - 1) <= Z.pos m < 2 ^ Z.pos (digits2_pos m).
Proof.
  induction m as [m IH | m IH |]; simpl digits2_pos.
  - rewrite Pos2Z.inj_succ. change (Z.pos m~1) with (2 * Z.pos m + 1).
    replace (Z.succ (Z.pos (digits2_pos m)) - 1)
      with (Z.succ (Z.pos (digits2_pos m) - 1)) by lia.
    rewrite !Z.pow_succ_r by lia.
    revert IH. generalize (2 ^ (Z.pos (digits2_pos m) - 1)).
    generalize (2 ^ Z.pos (digits2_pos m)). intros; lia.
  - rewrite Pos2Z.inj_succ. change (Z.pos m~0) with (2 * Z.pos m).
    replace (Z.succ (Z.pos (digits2_pos m)) - 1)
      with (Z.succ (Z.pos (digits2_pos m) - 1)) by lia.
    rewrite !Z.pow_succ_r by lia.
    revert IH. generalize (2 ^ (Z.pos (digits2_pos m) - 1)).
    generalize (2 ^ Z.pos (digits2_pos m)). intros; lia.
  - cbn. lia.
Qed.

(** A canonical binary64 mantissa at exponent [-52] has exactly 53 bits. *)
Lemma binary64_mantissa_at_minus_52 (m : positive) :
  bounded 53 1024 m (-52) = true -> 2 ^ 52 <= Z.pos m < 2 ^ 53.
Proof.
  unfold bounded, canonical_mantissa, fexp, emin.
  intros H. apply andb_prop in H as [H _]. apply Z.eqb_eq in H.
  pose proof (digits2_pos_bounds m) as Hb.
  assert (Hd : Z.pos (digits2_pos m) = 53).
  { generalize dependent (Z.pos (digits2_pos m)). intros d Hmax _.
    destruct (Z.max_spec (d + -52 - 53) (3 - 1024 - 53)) as [[_ E] | [_ E]];
      rewrite E in Hmax; lia. }
  rewrite Hd in Hb. exact Hb.
Qed.

(** No canonical binary64 has exponent [-51] and fewer than 53 bits. *)
Lemma binary64_no_short_mantissa_at_minus_51 (m : positive) :
  bounded 53 1024 m (-51) = true -> 2 ^ 52 <= Z.pos m.
Proof.
  unfold bounded, canonical_mantissa, fexp, emin.
  intros H. apply andb_prop in H as [H _]. apply Z.eqb_eq in H.
  pose proof (digits2_pos_bounds m) as Hb.
  assert (Hd : Z.pos (digits2_pos m) = 53).
  { generalize dependent (Z.pos (digits2_pos m)). intros d Hmax _.
    destruct (Z.max_spec (d + -51 - 53) (3 - 1024 - 53)) as [[_ E] | [_ E]];
      rewrite E in Hmax; lia. }
  rewrite Hd in Hb. destruct Hb as [Hb _]. exact Hb.
Qed.

Lemma py_int_unit_interval (v : spec_float) :
  is_binary64 v = true ->
  float_le float_1_0 v = true ->
  float_lt v float_2_0 = true ->
  py_int (NFloat v) = ok 1.
Proof.
  unfold is_binary64, float_le, float_lt, SFleb, SFltb, float_1_0, float_2_0.
  destruct v as [s | s | | s m e]; cbn [SFcompare valid_binary py_int];
    try discriminate.
  - destruct s; discriminate.
  - destruct s; try discriminate.
    intros Hv Hle Hlt.
    destruct (Z.compare_spec (-52) e) as [He | He | He]; try discriminate.
    + subst e. apply binary64_mantissa_at_minus_52 in Hv.
      unfold ok. f_equal.
      change (Z.shiftl (Z.pos m) (-52)) with (Z.shiftr (Z.pos m) 52).
      rewrite Z.shiftr_div_pow2 by lia.
      symmetry. apply Z.div_unique with (r := Z.pos m - 2 ^ 52); lia.
    + destruct (Z.compare_spec e (-51)) as [He' | He' | He']; try discriminate.
      * subst e. apply binary64_no_short_mantissa_at_minus_51 in Hv.
        rewrite Pos.compare_cont_spec in Hlt. cbn [Pos.switch_Eq] in Hlt.
        destruct (Pos.compare_spec m 4503599627370496) as [Hm | Hm | Hm];
          try discriminate.
        exfalso. apply Pos2Z.pos_lt_pos in Hm.
        change (Z.pos 4503599627370496) with (2 ^ 52) in Hm. lia.
      * lia.
Qed.

(** ** The methods of the component *)

Section Properties.

Context {Schedule : Type}.
Variable torch_CosineAnnealingWarmRestarts : value -> Z -> Z -> result Schedule.

Local Abbreviation torch := torch_CosineAnnealingWarmRestarts.

Implicit Types (self l : loc) (X : gmap string value) (y : value).
Implicit Types (w : @world Schedule) (c : @CosineAnnealingWarmRestarts Schedule).

(** The world after [self.scheduler = s] on the instance [c] at [self]. *)
Local Abbreviation assigned self c s w :=
  (set_heap (<[self := with_scheduler (Some s) c]> (heap w)) w).

(** [fit], statement by statement. *)
Lemma fit_unfold self X y w :
  fit torch self X y w =
  match X !! "optimizer" with
  | Some (VOptimizer o) =>
      match heap w !! self with
      | None => (raise AttributeError, w)
      | Some c =>
          match py_int (T_0 c) with
          | inl e => (inl e, w)
          | inr a =>
              match py_int (T_mult c) with
              | inl e => (inl e, w)
              | inr b =>
                  match torch (VOptimizer o) a b with
                  | inl e => (inl e, w)
                  | inr s => (ok self, assigned self c s w)
                  end
              end
          end
      end
  | _ => (raise MissingDependencyError, w)
  end.
Proof.
  unfold fit, bind, check_requirements, getitem, getattr, lift,
    setattr_scheduler, ret, throw.
  destruct (X !! "optimizer") as [[]|]; try reflexivity.
  destruct (heap w !! self) as [c|] eqn:Hc; cbn; [|reflexivity].
  destruct (py_int (T_0 c)); cbn; [reflexivity|]. rewrite Hc; cbn.
  destruct (py_int (T_mult c)); cbn; [reflexivity|].
  destruct (torch_CosineAnnealingWarmRestarts _ _ _); cbn; [reflexivity|].
  rewrite Hc. reflexivity.
Qed.

(** A call of [fit] on an allocated instance either raises and leaves the
    world alone, or returns [self] after one assignment to the field. *)
Lemma fit_cases self X y w c :
  heap w !! self = Some c ->
  (exists e, fit torch self X y w = (raise e, w)) \/
  (exists o a b s,
      X !! "optimizer" = Some (VOptimizer o) /\
      py_int (T_0 c) = ok a /\ py_int (T_mult c) = ok b /\
      torch (VOptimizer o) a b = ok s /\
      fit torch self X y w = (ok self, assigned self c s w)).
Proof.
  intros Hc. rewrite fit_unfold, Hc.
  destruct (X !! "optimizer") as [[| | | |o|]|]; eauto.
  destruct (py_int (T_0 c)) as [|a] eqn:Ha; eauto.
  destruct (py_int (T_mult c)) as [|b] eqn:Hb; eauto.
  destruct (torch_CosineAnnealingWarmRestarts _ a b) as [|s] eqn:Hs; eauto.
  right. exists o, a, b, s. auto.
Qed.

Lemma scheduler_of_assigned self c s w :
  scheduler_of self (assigned self c s w) = Some s.
Proof. unfold scheduler_of; cbn. rewrite lookup_insert_eq. reflexivity. Qed.

Lemma fit_ok self X y w c o a b s :
  heap w !! self = Some c ->
  X !! "optimizer" = Some (VOptimizer o) ->
  py_int (T_0 c) = ok a ->
  py_int (T_mult c) = ok b ->
  torch (VOptimizer o) a b = ok s ->
  fit torch self X y w = (ok self, assigned self c s w).
Proof.
  unfold ok. intros Hc Ho Ha Hb Hs.
  rewrite fit_unfold, Ho, Hc, Ha, Hb. cbv beta iota. rewrite Hs. reflexivity.
Qed.

Lemma heap_assigned_other self l c s w :
  l <> self -> heap (assigned self c s w) !! l = heap w !! l.
Proof. intros Hne; cbn. rewrite lookup_insert_ne; [reflexivity | congruence]. Qed.

(** What a successful [fit] did. *)
Lemma fit_ok_inv self X y w c opt r w' :
  heap w !! self = Some c ->
  X !! "optimizer" = Some opt ->
  fit torch self X y w = (ok r, w') ->
  exists a b s,
    py_int (T_0 c) = ok a /\ py_int (T_mult c) = ok b /\
    torch opt a b = ok s /\
    r = self /\ w' = assigned self c s w.
Proof.
  intros Hc Hopt Hfit.
  destruct (fit_cases self X y w c Hc)
    as [[e He] | (o & a & b & s & Ho & Ha & Hb & Hs & Hok)].
  - rewrite He in Hfit. discriminate.
  - rewrite Hok in Hfit. injection Hfit as <- <-.
    rewrite Hopt in Ho. injection Ho as ->.
    exists a, b, s. auto.
Qed.

(** C1: a successful [fit] builds the schedule from the optimizer in the
    mapping, [int(T_0)] and [int(T_mult)], and stores that schedule: both
    hyperparameters reach the library's constructor as integers. *)
Theorem fit_coerces_hyperparameters self X y w c opt r w' :
  heap w !! self = Some c ->
  X !! "optimizer" = Some opt ->
  fit torch self X y w = (ok r, w') ->
  exists a b s,
    py_int (T_0 c) = ok a /\ py_int (T_mult c) = ok b /\
    torch opt a b = ok s /\
    scheduler_of self w' = Some s.
Proof.
  intros Hc Hopt Hfit.
  destruct (fit_ok_inv self X y w c opt r w' Hc Hopt Hfit)
    as (a & b & s & Ha & Hb & Hs & _ & ->).
  exists a, b, s. repeat split; try assumption.
  apply scheduler_of_assigned.
Qed.

(** C2: when the mapping has no usable "optimizer" entry, [fit] raises
    [MissingDependencyError] and the world, and so the scheduler field, is
    exactly as before the call. *)
Theorem fit_missing_optimizer self X y w :
  (forall o, X !! "optimizer" <> Some (VOptimizer o)) ->
  fit torch self X y w = (raise MissingDependencyError, w) /\
  scheduler_of self (snd (fit torch self X y w)) = scheduler_of self w.
Proof.
  intros Hno.
  assert (E : fit torch self X y w = (raise MissingDependencyError, w)).
  { rewrite fit_unfold.
    destruct (X !! "optimizer") as [[| | | |o|]|] eqn:Ho; try reflexivity.
    destruct (Hno o). reflexivity. }
  split; [exact E | rewrite E; reflexivity].
Qed.

(** C7: after [fit] with one optimizer and then [fit] with another, the
    scheduler is the schedule built over the second optimizer, and the
    world is the one a single [fit] with the second mapping gives: nothing
    of the first call remains. *)
Theorem fit_last_write_wins self X1 y1 X2 y2 w c o1 o2 r1 w1 r2 w2 :
  heap w !! self = Some c ->
  X1 !! "optimizer" = Some (VOptimizer o1) ->
  X2 !! "optimizer" = Some (VOptimizer o2) ->
  fit torch self X1 y1 w = (ok r1, w1) ->
  fit torch self X2 y2 w1 = (ok r2, w2) ->
  (exists a b s,
      py_int (T_0 c) = ok a /\ py_int (T_mult c) = ok b /\
      torch (VOptimizer o2) a b = ok s /\
      scheduler_of self w2 = Some s) /\
  fit torch self X2 y2 w = (ok r2, w2).
Proof.
  intros Hc Ho1 Ho2 Hfit1 Hfit2.
  destruct (fit_cases self X1 y1 w c Hc)
    as [[e He] | (o & a & b & s & Ho & Ha & Hb & Hs & Hok)].
  { rewrite He in Hfit1. discriminate. }
  rewrite Hok in Hfit1. injection Hfit1 as <- <-.
  rewrite fit_unfold, Ho2 in Hfit2. cbn [heap set_heap] in Hfit2.
  rewrite lookup_insert_eq in Hfit2. cbn [with_scheduler T_0 T_mult] in Hfit2.
  unfold ok in Ha, Hb. rewrite Ha, Hb in Hfit2. cbv beta iota in Hfit2.
  rewrite fit_unfold, Ho2, Hc, Ha, Hb. cbv beta iota.
  destruct (torch (VOptimizer o2) a b) as [|s2] eqn:Hs2; [discriminate|].
  injection Hfit2 as <- <-. split.
  - exists a, b, s2. repeat split; try assumption.
    unfold scheduler_of; cbn. rewrite lookup_insert_eq. reflexivity.
  - f_equal. unfold set_heap; cbn. f_equal.
    rewrite insert_insert_eq. reflexivity.
Qed.

(** C9: whatever [fit] returns or raises, the files are untouched and
    are not read (the outcome is the same over any file system), every
    other instance is untouched, and of the instance itself the attributes
    [T_0], [T_mult] and [random_state] keep their values. *)
Theorem fit_frame self X y w c r w' :
  heap w !! self = Some c ->
  fit torch self X y w = (r, w') ->
  files w' = files w /\
  (forall fs, fit torch self X y (set_files fs w) = (r, set_files fs w')) /\
  (forall l, l <> self -> heap w' !! l = heap w !! l) /\
  (exists c', heap w' !! self = Some c' /\
              T_0 c' = T_0 c /\ T_mult c' = T_mult c /\
              random_state c' = random_state c).
Proof.
  intros Hc Hfit.
  assert (Hfs : forall fs, fit torch self X y (set_files fs w)
                  = (fst (fit torch self X y w),
                     set_files fs (snd (fit torch self X y w)))).
  { intros fs. rewrite !fit_unfold. cbn [heap set_files]. rewrite Hc.
    destruct (X !! "optimizer") as [[| | | |o|]|]; try reflexivity.
    destruct (py_int (T_0 c)); [reflexivity|].
    destruct (py_int (T_mult c)); [reflexivity|].
    destruct (torch _ _ _); reflexivity. }
  split; [|split; [|split]].
  - destruct (fit_cases self X y w c Hc)
      as [[e He] | (o & a & b & s & _ & _ & _ & _ & Hok)].
    + rewrite He in Hfit. injection Hfit as <- <-. reflexivity.
    + rewrite Hok in Hfit. injection Hfit as <- <-. reflexivity.
  - intros fs. rewrite Hfs, Hfit. reflexivity.
  - intros l Hl.
    destruct (fit_cases self X y w c Hc)
      as [[e He] | (o & a & b & s & _ & _ & _ & _ & Hok)].
    + rewrite He in Hfit. injection Hfit as <- <-. reflexivity.
    + rewrite Hok in Hfit. injection Hfit as <- <-.
      apply heap_assigned_other, Hl.
  - destruct (fit_cases self X y w c Hc)
      as [[e He] | (o & a & b & s & _ & _ & _ & _ & Hok)].
    + rewrite He in Hfit. injection Hfit as <- <-. exists c. auto.
    + rewrite Hok in Hfit. injection Hfit as <- <-.
      exists (with_scheduler (Some s) c). cbn.
      rewrite lookup_insert_eq. auto.
Qed.

Lemma fit_all_scheduler self calls :
  forall w c outs w',
    heap w !! self = Some c ->
    fit_all torch self calls w = (outs, w') ->
    (exists c', heap w' !! self = Some c') /\
    (scheduler_of self w' <> None <->
     scheduler_of self w <> None \/ existsb is_ok outs = true).
Proof.
  induction calls as [|[X y] rest IH]; intros w c outs w' Hc Hrun; cbn in Hrun.
  - injection Hrun as <- <-. split; [eauto|]. cbn. intuition discriminate.
  - destruct (fit_cases self X y w c Hc)
      as [[e He] | (o & a & b & s & _ & _ & _ & _ & Hok)].
    + rewrite He in Hrun.
      destruct (fit_all torch self rest w) as [rs w2] eqn:Hrest.
      injection Hrun as <- <-.
      destruct (IH w c rs w2 Hc Hrest) as [Hal Hiff].
      split; [exact Hal|]. cbn. exact Hiff.
    + rewrite Hok in Hrun.
      destruct (fit_all torch self rest (assigned self c s w)) as [rs w2] eqn:Hrest.
      injection Hrun as <- <-.
      assert (Hc1 : heap (assigned self c s w) !! self
                    = Some (with_scheduler (Some s) c))
        by (cbn; apply lookup_insert_eq).
      destruct (IH _ _ rs w2 Hc1 Hrest) as [Hal Hiff].
      split; [exact Hal|]. cbn. rewrite scheduler_of_assigned in Hiff.
      split; [auto|]. intros _. apply Hiff. left. discriminate.
Qed.

(** C3: the scheduler field is [None] right after construction; after any
    sequence of [fit] calls on the instance it is set exactly when one of
    the calls succeeded; and a successful [fit] stores its own schedule
    whatever the field held before, so that the resulting world does not
    depend on the schedule that was replaced. *)
Theorem scheduler_set_iff_fit_succeeded T0 Tmult rs w0 self w :
  __init__ T0 Tmult rs w0 = (ok self, w) ->
  scheduler_of self w = None /\
  (forall calls outs w',
      fit_all torch self calls w = (outs, w') ->
      (scheduler_of self w' <> None <-> existsb is_ok outs = true)) /\
  (forall X y w1 c old r w2,
      heap w1 !! self = Some c ->
      fit torch self X y w1 = (ok r, w2) ->
      exists s,
        scheduler_of self w2 = Some s /\
        fit torch self X y
          (set_heap (<[self := with_scheduler old c]> (heap w1)) w1)
        = (ok r, w2)).
Proof.
  intros Hinit. unfold __init__ in Hinit. injection Hinit as <- <-.
  set (self := fresh (dom (heap w0))).
  assert (Hnone : scheduler_of (Schedule := Schedule) self
            (set_heap (<[self := {| T_0 := T0; T_mult := Tmult;
                                    random_state := default VNone rs;
                                    scheduler := None |}]> (heap w0)) w0) = None).
  { unfold scheduler_of; cbn. rewrite lookup_insert_eq. reflexivity. }
  split; [exact Hnone | split].
  - intros calls outs w' Hrun.
    eapply fit_all_scheduler in Hrun as [_ Hiff];
      [| cbn; apply lookup_insert_eq].
    rewrite Hnone in Hiff. rewrite Hiff. intuition congruence.
  - intros X y w1 c old r w2 Hc Hfit.
    destruct (fit_cases self X y w1 c Hc)
      as [[e He] | (o & a & b & s & Ho & Ha & Hb & Hs & Hok)].
    { rewrite He in Hfit. discriminate. }
    rewrite Hok in Hfit. injection Hfit as <- <-.
    exists s. split; [apply scheduler_of_assigned|].
    rewrite (fit_ok self X y _ (with_scheduler old c) o a b s);
      try assumption; [| cbn; apply lookup_insert_eq].
    f_equal. unfold set_heap; cbn. f_equal. apply insert_insert_eq.
Qed.

(** C10: a binary64 [T_mult] with [1.0 <= T_mult < 2.0] reaches the
    schedule constructor as the integer 1, so [fit] has the same outcome
    and stores the same schedule as on the instance with [T_mult = 1.0]. *)
Theorem fit_truncates_T_mult v self X y w c :
  is_binary64 v = true ->
  float_le float_1_0 v = true ->
  float_lt v float_2_0 = true ->
  heap w !! self = Some c ->
  T_mult c = NFloat v ->
  py_int (T_mult c) = ok 1 /\
  (forall opt r w',
      X !! "optimizer" = Some opt ->
      fit torch self X y w = (ok r, w') ->
      exists a s,
        py_int (T_0 c) = ok a /\ torch opt a 1 = ok s /\
        scheduler_of self w' = Some s) /\
  let w1 := set_heap (<[self := with_T_mult (NFloat float_1_0) c]> (heap w)) w in
  fst (fit torch self X y w) = fst (fit torch self X y w1) /\
  scheduler_of self (snd (fit torch self X y w))
  = scheduler_of self (snd (fit torch self X y w1)).
Proof.
  intros Hbin Hle Hlt Hc Hv.
  pose proof (py_int_unit_interval v Hbin Hle Hlt) as Hint.
  rewrite <- Hv in Hint.
  split; [exact Hint | split].
  - intros opt r w' Hopt Hfit.
    destruct (fit_ok_inv self X y w c opt r w' Hc Hopt Hfit)
      as (a & b & s & Ha & Hb & Hs & _ & ->).
    rewrite Hint in Hb. injection Hb as <-.
    exists a, s. repeat split; try assumption.
    apply scheduler_of_assigned.
  - intros w1.
    assert (Hc1 : heap w1 !! self = Some (with_T_mult (NFloat float_1_0) c))
      by (cbn; apply lookup_insert_eq).
    assert (Hone : py_int (NFloat float_1_0) = inr 1) by reflexivity.
    rewrite !fit_unfold, Hc, Hc1. cbn [with_T_mult T_0 T_mult].
    unfold ok in Hint. rewrite Hint, Hone.
    assert (Hsame : scheduler_of self w1 = scheduler_of self w).
    { unfold scheduler_of. rewrite Hc, Hc1. reflexivity. }
    destruct (X !! "optimizer") as [[| | | |o|]|]; cbn [fst snd]; auto.
    destruct (py_int (T_0 c)) as [|a]; cbn [fst snd]; auto.
    destruct (torch (VOptimizer o) a 1) as [|s]; cbn [fst snd]; auto.
    split; [reflexivity|].
    unfold scheduler_of; cbn. rewrite !lookup_insert_eq. reflexivity.
Qed.

(** ** The static methods *)

(** C5: with every argument left at its default, the search space holds
    exactly the integer hyperparameter "T_0" over [1, 20] with default 1
    and the real hyperparameter "T_mult" over [1.0, 2.0] with default 1.0. *)
Theorem default_search_space dataset_properties w :
  get_hyperparameter_search_space dataset_properties None None w
  = (ok [UniformInteger "T_0" 1 20 1;
         UniformFloat "T_mult" float_1_0 float_2_0 float_1_0], w).
Proof. reflexivity. Qed.

(** C6: [get_properties] returns the same three-entry mapping for every
    argument and in every world, raises nothing and changes nothing. *)
Theorem get_properties_fixed dataset_properties w :
  get_properties dataset_properties w
  = (ok (list_to_map
           [("shortname", VStr "CosineAnnealingWarmRestarts");
            ("name", VStr "Cosine Annealing WarmRestarts");
            ("cyclic", VBool true)]), w).
Proof. reflexivity. Qed.

(** C8: with supplied ranges, the search-space builder raises
    [InvalidRangeError] as soon as one of the two ranges has low > high or
    a default outside [low, high], and otherwise returns the two
    hyperparameters without raising. *)
Theorem search_space_range_errors dataset_properties
    (lo0 hi0 d0 : Z) (lo1 hi1 d1 : spec_float) w :
  (hi0 < lo0 \/ ~ (lo0 <= d0 <= hi0) \/
   float_lt hi1 lo1 = true \/
   ~ (float_le lo1 d1 = true /\ float_le d1 hi1 = true) ->
   get_hyperparameter_search_space dataset_properties
     (Some ((lo0, hi0), d0)) (Some ((lo1, hi1), d1)) w
   = (raise InvalidRangeError, w)) /\
  (lo0 <= d0 <= hi0 ->
   float_lt hi1 lo1 = false ->
   float_le lo1 d1 = true -> float_le d1 hi1 = true ->
   get_hyperparameter_search_space dataset_properties
     (Some ((lo0, hi0), d0)) (Some ((lo1, hi1), d1)) w
   = (ok [UniformInteger "T_0" lo0 hi0 d0; UniformFloat "T_mult" lo1 hi1 d1], w)).
Proof.
  unfold get_hyperparameter_search_space, bind, lift, ret,
    UniformIntegerHyperparameter, UniformFloatHyperparameter,
    int_range_invalid, float_range_invalid.
  cbn [default from_option id fst snd].
  split.
  - intros Hbad.
    destruct ((hi0 <? lo0) || negb ((lo0 <=? d0) && (d0 <=? hi0))) eqn:Hi;
      [reflexivity|].
    apply orb_false_elim in Hi as [Hi1 Hi2].
    apply Z.ltb_ge in Hi1. apply negb_false_iff, andb_prop in Hi2 as [Hi2 Hi3].
    apply Z.leb_le in Hi2, Hi3.
    destruct Hbad as [Hbad | [Hbad | Hbad]]; [lia | lia |].
    destruct (float_lt hi1 lo1); [reflexivity|].
    destruct (float_le lo1 d1); [|reflexivity].
    destruct (float_le d1 hi1); [|reflexivity].
    destruct Hbad as [Hbad | Hbad]; [discriminate | tauto].
  - intros Hd Hlt Hle1 Hle2. rewrite Hlt, Hle1, Hle2.
    replace (hi0 <? lo0) with false by (symmetry; apply Z.ltb_ge; lia).
    replace (lo0 <=? d0) with true by (symmetry; apply Z.leb_le; lia).
    replace (d0 <=? hi0) with true by (symmetry; apply Z.leb_le; lia).
    reflexivity.
Qed.

End Properties.

(** * The component on concrete inputs *)

Lemma fit_coerces_hyperparameters_witness :
  scheduler_of 1%positive
    (snd (fit torch_constructor 1%positive (deps 7) VNone (world_with (NInt 5) (NInt 2))))
  = Some {| sched_optimizer := 7; sched_T_0 := 5; sched_T_mult := 2 |}.
Proof.
  destruct (fit_coerces_hyperparameters torch_constructor 1%positive (deps 7) VNone
              (world_with (NInt 5) (NInt 2)) (unfit (NInt 5) (NInt 2))
              (VOptimizer 7) 1%positive
              (snd (fit torch_constructor 1%positive (deps 7) VNone
                      (world_with (NInt 5) (NInt 2)))))
    as (a & b & s & Ha & Hb & Hs & Hsched);
    [reflexivity | reflexivity | reflexivity |].
  injection Ha as <-. injection Hb as <-.
  vm_compute in Hs. injection Hs as <-. exact Hsched.
Defined.

Lemma fit_missing_optimizer_witness :
  fit torch_constructor 1%positive bad_deps VNone (world_with (NInt 5) (NInt 2))
  = (raise MissingDependencyError, world_with (NInt 5) (NInt 2)).
Proof.
  apply (fit_missing_optimizer torch_constructor 1%positive bad_deps VNone
           (world_with (NInt 5) (NInt 2))).
  intros o H. vm_compute in H. discriminate.
Defined.

Lemma scheduler_set_iff_fit_succeeded_witness :
  scheduler_of 1%positive (world_with (NInt 5) (NInt 2)) = None /\
  scheduler_of 1%positive
    (snd (fit_all torch_constructor 1%positive
            [(bad_deps, VNone); (deps 7, VNone)] (world_with (NInt 5) (NInt 2))))
  <> None.
Proof.
  destruct (scheduler_set_iff_fit_succeeded torch_constructor
              (NInt 5) (NInt 2) None empty_world 1%positive
              (world_with (NInt 5) (NInt 2)) eq_refl) as (Hnone & Hiff & _).
  split; [exact Hnone|].
  apply (Hiff [(bad_deps, VNone); (deps 7, VNone)]
              [raise MissingDependencyError; ok 1%positive]); reflexivity.
Defined.

Lemma fit_last_write_wins_witness :
  scheduler_of 1%positive
    (snd (fit torch_constructor 1%positive (deps 8) VNone
            (snd (fit torch_constructor 1%positive (deps 7) VNone
                    (world_with (NInt 5) (NInt 2))))))
  = Some {| sched_optimizer := 8; sched_T_0 := 5; sched_T_mult := 2 |}.
Proof.
  destruct (fit_last_write_wins torch_constructor 1%positive
              (deps 7) VNone (deps 8) VNone
              (world_with (NInt 5) (NInt 2)) (unfit (NInt 5) (NInt 2))
              7%positive 8%positive
              1%positive
              (snd (fit torch_constructor 1%positive (deps 7) VNone
                      (world_with (NInt 5) (NInt 2))))
              1%positive
              (snd (fit torch_constructor 1%positive (deps 8) VNone
                      (snd (fit torch_constructor 1%positive (deps 7) VNone
                              (world_with (NInt 5) (NInt 2)))))))
    as [(a & b & s & Ha & Hb & Hs & Hsched) _];
    [reflexivity | reflexivity | reflexivity | reflexivity | reflexivity |].
  injection Ha as <-. injection Hb as <-.
  vm_compute in Hs. injection Hs as <-. exact Hsched.
Defined.

Lemma search_space_range_errors_witness :
  get_hyperparameter_search_space None
    (Some ((5, 1), 3)) (Some ((float_1_0, float_2_0), float_1_0)) empty_world
  = (raise InvalidRangeError, empty_world) /\
  get_hyperparameter_search_space None
    (Some ((1, 20), 1)) (Some ((float_1_0, float_2_0), float_1_5)) empty_world
  = (ok [UniformInteger "T_0" 1 20 1;
         UniformFloat "T_mult" float_1_0 float_2_0 float_1_5], empty_world).
Proof.
  split.
  - apply (search_space_range_errors None 5 1 3 float_1_0 float_2_0 float_1_0
             empty_world).
    left. lia.
  - apply (search_space_range_errors None 1 20 1 float_1_0 float_2_0 float_1_5
             empty_world); [lia | reflexivity | reflexivity | reflexivity].
Defined.

Lemma fit_frame_witness :
  files (snd (fit torch_constructor 1%positive (deps 7) VNone
                (world_with (NInt 5) (NInt 2))))
  = files (world_with (NInt 5) (NInt 2)).
Proof.
  apply (fit_frame torch_constructor 1%positive (deps 7) VNone
           (world_with (NInt 5) (NInt 2)) (unfit (NInt 5) (NInt 2))
           (ok 1%positive)
           (snd (fit torch_constructor 1%positive (deps 7) VNone
                   (world_with (NInt 5) (NInt 2)))));
    reflexivity.
Defined.

Lemma fit_truncates_T_mult_witness :
  py_int (NFloat float_1_5) = ok 1 /\
  scheduler_of 1%positive
    (snd (fit torch_constructor 1%positive (deps 7) VNone
            (world_with (NInt 5) (NFloat float_1_5))))
  = Some {| sched_optimizer := 7; sched_T_0 := 5; sched_T_mult := 1 |}.
Proof.
  destruct (fit_truncates_T_mult torch_constructor float_1_5 1%positive
              (deps 7) VNone (world_with (NInt 5) (NFloat float_1_5))
              (unfit (NInt 5) (NFloat float_1_5)))
    as (Hint & Hctor & _);
    [reflexivity | reflexivity | reflexivity | reflexivity | reflexivity |].
  split; [exact Hint|].
  destruct (Hctor (VOptimizer 7) 1%positive
              (snd (fit torch_constructor 1%positive (deps 7) VNone
                      (world_with (NInt 5) (NFloat float_1_5)))))
    as (a & s & Ha & Hs & Hsched); [reflexivity | reflexivity |].
  injection Ha as <-. vm_compute in Hs. injection Hs as <-. exact Hsched.
Defined.

(** * Further properties of the component *)

(** ** Truncation over the whole default range of [T_mult] *)

Lemma py_int_default_range (v : spec_float) :
  is_binary64 v = true ->
  float_le float_1_0 v = true ->
  float_le v float_2_0 = true ->
  py_int (NFloat v) = ok 1 \/ (v = float_2_0 /\ py_int (NFloat v) = ok 2).
Proof.
  intros Hbin Hle1 Hle2.
  destruct (float_lt v float_2_0) eqn:Hlt.
  { left. apply py_int_unit_interval; assumption. }
  right.
  unfold float_le, float_lt, SFleb, SFltb, float_1_0, float_2_0 in *.
  destruct v as [s | s | | s m e]; cbn [SFcompare] in *; try discriminate.
  - destruct s; discriminate.
  - destruct s; try discriminate.
    destruct (Z.compare_spec e (-51)) as [He | He | He]; try discriminate.
    subst e. rewrite Pos.compare_cont_spec in Hle2, Hlt.
    cbn [Pos.switch_Eq] in Hle2, Hlt.
    destruct (Pos.compare_spec m 4503599627370496) as [Hm | Hm | Hm];
      try discriminate.
    subst m. split; reflexivity.
Qed.

(** ** Values that [int] turns into an integer at least 1 *)

(** A canonical binary64 above the subnormal exponent has a 53-bit
    mantissa. *)
Lemma binary64_normal_mantissa (m : positive) (e : Z) :
  bounded 53 1024 m e = true -> -1074 < e -> 2 ^ 52 <= Z.pos m.
Proof.
  unfold bounded, canonical_mantissa, fexp, emin.
  intros H He. apply andb_prop in H as [H _]. apply Z.eqb_eq in H.
  pose proof (digits2_pos_bounds m) as Hb.
  assert (Hd : Z.pos (digits2_pos m) = 53).
  { generalize dependent (Z.pos (digits2_pos m)). intros d Hmax _.
    destruct (Z.max_spec (d + e - 53) (3 - 1024 - 53)) as [[_ E] | [_ E]];
      rewrite E in Hmax; lia. }
  rewrite Hd in Hb. destruct Hb as [Hb _]. exact Hb.
Qed.

Lemma py_int_at_least_one (x : number) :
  at_least_one x = true -> exists z, py_int x = ok z /\ 1 <= z.
Proof.
  destruct x as [n | v]; cbn [at_least_one].
  - intros H. apply Z.leb_le in H. exists n. split; [reflexivity | exact H].
  - intros H. apply andb_prop in H as [H Hfin]. apply andb_prop in H as [Hbin Hle].
    unfold is_binary64, float_le, float_lt, SFleb, SFltb, float_1_0 in *.
    destruct v as [s | s | | s m e]; cbn [SFcompare valid_binary py_int] in *;
      try discriminate.
    + destruct s; discriminate.
    + destruct s; try discriminate.
      assert (He : -52 <= e).
      { destruct (Z.compare_spec (-52) e) as [E | E | E]; try discriminate; lia. }
      pose proof (binary64_normal_mantissa m e Hbin ltac:(lia)) as Hm.
      eexists. split; [reflexivity|].
      destruct (Z.le_gt_cases 0 e) as [Hpos | Hneg].
      * rewrite Z.shiftl_mul_pow2 by exact Hpos.
        assert (0 < 2 ^ e) by (apply Z.pow_pos_nonneg; lia). nia.
      * rewrite Z.shiftl_div_pow2 by lia.
        assert (Hp : 0 < 2 ^ (- e)) by (apply Z.pow_pos_nonneg; lia).
        assert (Hq : 2 ^ (- e) <= 2 ^ 52) by (apply Z.pow_le_mono_r; lia).
        assert (0 < Z.pos m / 2 ^ (- e)); [|lia].
        apply Z.div_str_pos. split; [exact Hp|].
        apply Z.le_trans with (2 ^ 52); assumption.
Qed.

Section Further.

Context {Schedule : Type}.
Variable torch_CosineAnnealingWarmRestarts : value -> Z -> Z -> result Schedule.

Local Abbreviation torch := torch_CosineAnnealingWarmRestarts.

Implicit Types (self : loc) (X : gmap string value) (y : value).
Implicit Types (w : @world Schedule) (c : @CosineAnnealingWarmRestarts Schedule).

Local Abbreviation assigned self c s w :=
  (set_heap (<[self := with_scheduler (Some s) c]> (heap w)) w).

(** The world [w] with the scheduler field of the instance at [self]
    overwritten. *)
Local Abbreviation overwritten self c old w :=
  (set_heap (<[self := with_scheduler old c]> (heap w)) w).

Lemma overwritten_same self c w :
  heap w !! self = Some c -> overwritten self c (scheduler c) w = w.
Proof.
  intros Hc. destruct w as [h fs], c as [t0 tm rs sch]; cbn in *.
  unfold set_heap, with_scheduler; cbn. f_equal. apply insert_id, Hc.
Qed.

Lemma overwritten_twice self c old old' w :
  overwritten self (with_scheduler old c) old' (overwritten self c old w)
  = overwritten self c old' w.
Proof. unfold set_heap; cbn. f_equal. apply insert_insert_eq. Qed.

(** The schedule the field held before does not reach [fit]. *)
Lemma fit_overwritten self X y w c old :
  heap w !! self = Some c ->
  fst (fit torch self X y (overwritten self c old w)) = fst (fit torch self X y w) /\
  (is_ok (fst (fit torch self X y w)) = true ->
   snd (fit torch self X y (overwritten self c old w)) = snd (fit torch self X y w)).
Proof.
  intros Hc. rewrite !fit_unfold. cbn [heap set_heap].
  rewrite lookup_insert_eq, Hc. cbn [with_scheduler T_0 T_mult].
  destruct (X !! "optimizer") as [[| | | |o|]|]; cbn; try (split; [reflexivity | discriminate]).
  destruct (py_int (T_0 c)); cbn; try (split; [reflexivity | discriminate]).
  destruct (py_int (T_mult c)); cbn; try (split; [reflexivity | discriminate]).
  destruct (torch _ _ _); cbn; try (split; [reflexivity | discriminate]).
  split; [reflexivity|]. intros _.
  unfold set_heap; cbn. f_equal. apply insert_insert_eq.
Qed.

(** X1: whatever makes [fit] raise (a missing optimizer, a hyperparameter
    that [int] refuses, an argument the schedule constructor refuses), the
    world after the call is the world before it. *)
Theorem fit_raise_world_unchanged self X y w e w' :
  fit torch self X y w = (raise e, w') -> w' = w.
Proof.
  rewrite fit_unfold. unfold raise, ok.
  destruct (X !! "optimizer") as [[| | | |o|]|]; try (intros [= _ <-]; reflexivity).
  destruct (heap w !! self) as [c|]; try (intros [= _ <-]; reflexivity).
  destruct (py_int (T_0 c)); try (intros [= _ <-]; reflexivity).
  destruct (py_int (T_mult c)); try (intros [= _ <-]; reflexivity).
  destruct (torch _ _ _); [intros [= _ <-]; reflexivity | discriminate].
Qed.

(** X2: with an optimizer in the mapping, a NaN hyperparameter makes [fit]
    raise [ValueError] and an infinite one [OverflowError]; [T_0] is
    converted first, and the schedule constructor is never reached, so the
    outcome is the same for every constructor. *)
Theorem fit_nonfinite_hyperparameter self X y w c o :
  heap w !! self = Some c ->
  X !! "optimizer" = Some (VOptimizer o) ->
  (T_0 c = NFloat S754_nan -> fit torch self X y w = (raise ValueError, w)) /\
  (forall s, T_0 c = NFloat (S754_infinity s) ->
             fit torch self X y w = (raise OverflowError, w)) /\
  (forall a, py_int (T_0 c) = ok a ->
     (T_mult c = NFloat S754_nan -> fit torch self X y w = (raise ValueError, w)) /\
     (forall s, T_mult c = NFloat (S754_infinity s) ->
                fit torch self X y w = (raise OverflowError, w))).
Proof.
  intros Hc Ho. rewrite fit_unfold, Ho, Hc.
  split; [|split].
  - intros ->. reflexivity.
  - intros s ->. reflexivity.
  - intros a Ha. unfold ok in Ha. rewrite Ha. split.
    + intros ->. reflexivity.
    + intros s ->. reflexivity.
Qed.

Lemma fit_after_check_requirements self X y w :
  fit_after torch check_requirements self X y w = fit torch self X y w.
Proof. reflexivity. Qed.

(** [fit] past a requirement check that passed and left the world alone. *)
Lemma fit_after_unfold check self X y w c :
  check self X y w = (ok tt, w) ->
  heap w !! self = Some c ->
  fit_after torch check self X y w =
  match X !! "optimizer" with
  | None => (raise KeyError, w)
  | Some opt =>
      match py_int (T_0 c) with
      | inl e => (inl e, w)
      | inr a =>
          match py_int (T_mult c) with
          | inl e => (inl e, w)
          | inr b =>
              match torch opt a b with
              | inl e => (inl e, w)
              | inr s => (ok self, assigned self c s w)
              end
          end
      end
  end.
Proof.
  intros Hcheck Hc.
  unfold fit_after, bind, getitem, getattr, lift, setattr_scheduler, ret, throw.
  rewrite Hcheck. cbn.
  destruct (X !! "optimizer") as [opt|]; cbn; [|reflexivity].
  rewrite Hc; cbn.
  destruct (py_int (T_0 c)); cbn; [reflexivity|]. rewrite Hc; cbn.
  destruct (py_int (T_mult c)); cbn; [reflexivity|].
  destruct (torch opt _ _); cbn; [reflexivity|].
  rewrite Hc. reflexivity.
Qed.

(** X3: whatever the inherited requirement check is, once it has passed
    the outcome of [fit] and the schedule it stores depend only on the
    "optimizer" entry of the mapping and on [T_0] and [T_mult]: the
    statements after the check read neither [y], nor another entry, nor
    [random_state], nor the schedule held before, nor the rest of the
    world. *)
Theorem fit_depends_only_on check self X1 y1 w1 c1 X2 y2 w2 c2 :
  check self X1 y1 w1 = (ok tt, w1) ->
  check self X2 y2 w2 = (ok tt, w2) ->
  heap w1 !! self = Some c1 ->
  heap w2 !! self = Some c2 ->
  X1 !! "optimizer" = X2 !! "optimizer" ->
  T_0 c1 = T_0 c2 ->
  T_mult c1 = T_mult c2 ->
  fst (fit_after torch check self X1 y1 w1)
  = fst (fit_after torch check self X2 y2 w2) /\
  (is_ok (fst (fit_after torch check self X1 y1 w1)) = true ->
   scheduler_of self (snd (fit_after torch check self X1 y1 w1))
   = scheduler_of self (snd (fit_after torch check self X2 y2 w2))).
Proof.
  intros Hk1 Hk2 Hc1 Hc2 HX H0 Hm.
  rewrite (fit_after_unfold check self X1 y1 w1 c1 Hk1 Hc1).
  rewrite (fit_after_unfold check self X2 y2 w2 c2 Hk2 Hc2).
  rewrite HX, H0, Hm.
  destruct (X2 !! "optimizer") as [opt|]; cbn; try (split; [reflexivity | discriminate]).
  destruct (py_int (T_0 c2)); cbn; try (split; [reflexivity | discriminate]).
  destruct (py_int (T_mult c2)); cbn; try (split; [reflexivity | discriminate]).
  destruct (torch opt _ _); cbn; try (split; [reflexivity | discriminate]).
  split; [reflexivity|]. intros _.
  unfold scheduler_of; cbn. rewrite !lookup_insert_eq. reflexivity.
Qed.

(** X4: [fit] is idempotent: a second call with the same mapping returns
    or raises the same and leaves the world the first call left. *)
Theorem fit_idempotent self X y w :
  fit torch self X y (snd (fit torch self X y w)) = fit torch self X y w.
Proof.
  destruct (heap w !! self) as [c|] eqn:Hc.
  - destruct (fit_cases torch self X y w c Hc)
      as [[e He] | (o & a & b & s & Ho & Ha & Hb & Hs & Hok)].
    + rewrite He. cbn [snd]. exact He.
    + rewrite Hok. cbn [snd].
      rewrite (fit_ok torch self X y _ (with_scheduler (Some s) c) o a b s);
        try assumption; [| cbn; apply lookup_insert_eq].
      f_equal. apply (overwritten_twice self c (Some s) (Some s) w).
  - assert (E : exists e, fit torch self X y w = (raise e, w)).
    { rewrite fit_unfold, Hc.
      destruct (X !! "optimizer") as [[| | | |o|]|]; eauto. }
    destruct E as [e E]. rewrite E. cbn [snd]. exact E.
Qed.

Lemma fit_all_app self calls1 calls2 w :
  fit_all torch self (calls1 ++ calls2) w
  = let (outs1, w1) := fit_all torch self calls1 w in
    let (outs2, w2) := fit_all torch self calls2 w1 in
    (outs1 ++ outs2, w2).
Proof.
  revert w. induction calls1 as [|[X y] rest IH]; intros w; cbn.
  - destruct (fit_all torch self calls2 w); reflexivity.
  - destruct (fit torch self X y w) as [r w1]. rewrite IH.
    destruct (fit_all torch self rest w1) as [rs w2].
    destruct (fit_all torch self calls2 w2); reflexivity.
Qed.

(** A sequence of [fit] calls changes at most the scheduler field of the
    instance. *)
Lemma fit_all_world self calls :
  forall w c outs w',
    heap w !! self = Some c ->
    fit_all torch self calls w = (outs, w') ->
    exists sch, w' = overwritten self c sch w.
Proof.
  induction calls as [|[X y] rest IH]; intros w c outs w' Hc Hrun; cbn in Hrun.
  - injection Hrun as <- <-. exists (scheduler c).
    symmetry. apply overwritten_same, Hc.
  - destruct (fit_cases torch self X y w c Hc)
      as [[e He] | (o & a & b & s & _ & _ & _ & _ & Hok)].
    + rewrite He in Hrun.
      destruct (fit_all torch self rest w) as [rs w2] eqn:Hrest.
      injection Hrun as <- <-. eapply IH; eassumption.
    + rewrite Hok in Hrun.
      destruct (fit_all torch self rest (assigned self c s w)) as [rs w2] eqn:Hrest.
      injection Hrun as <- <-.
      destruct (IH (assigned self c s w) (with_scheduler (Some s) c) rs w2)
        as [sch ->]; [cbn; apply lookup_insert_eq | exact Hrest |].
      exists sch. apply overwritten_twice.
Qed.

(** X5: after any sequence of [fit] calls on an instance, failed or not,
    a last call that succeeds leaves exactly the world that this call alone
    gives from the start: only the last successful [fit] counts. *)
Theorem fit_all_last_write_wins self calls X y w c outs w' r :
  heap w !! self = Some c ->
  fit_all torch self (calls ++ [(X, y)]) w = (outs, w') ->
  last outs = Some (ok r) ->
  fit torch self X y w = (ok r, w').
Proof.
  intros Hc Hrun Hlast. rewrite fit_all_app in Hrun.
  destruct (fit_all torch self calls w) as [outs1 w1] eqn:Hpre.
  cbn in Hrun. destruct (fit torch self X y w1) as [r1 w2] eqn:Hfit.
  injection Hrun as <- <-. rewrite last_snoc in Hlast. injection Hlast as ->.
  destruct (fit_all_world self calls w c outs1 w1 Hc Hpre) as [sch ->].
  destruct (fit_overwritten self X y w c sch Hc) as [Hfst Hsnd].
  rewrite Hfit in Hfst, Hsnd. cbn [fst snd] in Hfst, Hsnd.
  destruct (fit torch self X y w) as [r2 w3]. cbn [fst snd] in *.
  subst r2. rewrite Hsnd; reflexivity.
Qed.

(** X6: for a binary64 [T_mult] anywhere in the default search range
    [1.0, 2.0], a successful [fit] builds the schedule with growth factor 1,
    or with growth factor 2 when [T_mult] is exactly 2.0: the range offers
    two schedules only. *)
Theorem fit_default_range_T_mult v self X y w c opt r w' :
  is_binary64 v = true ->
  float_le float_1_0 v = true ->
  float_le v float_2_0 = true ->
  heap w !! self = Some c ->
  T_mult c = NFloat v ->
  X !! "optimizer" = Some opt ->
  fit torch self X y w = (ok r, w') ->
  exists a s,
    py_int (T_0 c) = ok a /\
    scheduler_of self w' = Some s /\
    (torch opt a 1 = ok s \/ (v = float_2_0 /\ torch opt a 2 = ok s)).
Proof.
  intros Hbin Hle1 Hle2 Hc Hv Hopt Hfit.
  destruct (fit_ok_inv torch self X y w c opt r w' Hc Hopt Hfit)
    as (a & b & s & Ha & Hb & Hs & _ & ->).
  exists a, s. split; [exact Ha|]. split; [apply scheduler_of_assigned|].
  rewrite Hv in Hb.
  destruct (py_int_default_range v Hbin Hle1 Hle2) as [H1 | [H2 H2']].
  - rewrite H1 in Hb. injection Hb as <-. left. exact Hs.
  - rewrite H2' in Hb. injection Hb as <-. right. split; assumption.
Qed.

(** X8: the scheduler is an attribute of the instance, not of the class:
    of two instances constructed one after the other, the second has its own
    reference, and a [fit] on the first, whatever its outcome, leaves the
    second as [__init__] made it, with no scheduler. *)
Theorem instances_independent
    T0a Tma rsa T0b Tmb rsb w0 (a : loc) w1 (b : loc) w2 X y r w3 :
  __init__ T0a Tma rsa w0 = (ok a, w1) ->
  __init__ T0b Tmb rsb w1 = (ok b, w2) ->
  fit torch a X y w2 = (r, w3) ->
  a <> b /\
  heap w3 !! b = Some {| T_0 := T0b; T_mult := Tmb;
                         random_state := default VNone rsb;
                         scheduler := None |} /\
  scheduler_of b w3 = None.
Proof.
  intros Ha Hb Hfit. unfold __init__ in Ha, Hb.
  injection Ha as <- <-. injection Hb as <- <-.
  set (ca := {| T_0 := T0a; T_mult := Tma; random_state := default VNone rsa;
                scheduler := None |}) in *.
  set (cb := {| T_0 := T0b; T_mult := Tmb; random_state := default VNone rsb;
                scheduler := None |}) in *.
  set (a := fresh (dom (heap w0))) in *.
  cbn [heap set_heap] in *.
  set (b := fresh (dom (<[a := ca]> (heap w0)))) in *.
  assert (Hne : a <> b).
  { intros Heq. pose proof (is_fresh (dom (<[a := ca]> (heap w0)))) as Hfresh.
    fold b in Hfresh. rewrite <- Heq in Hfresh.
    apply Hfresh. rewrite dom_insert_L. set_solver. }
  assert (Hlb : heap w3 !! b = Some cb).
  { set (w2 := set_heap (<[b := cb]> (<[a := ca]> (heap w0))) (set_heap (<[a := ca]> (heap w0)) w0)) in *.
    assert (Hca : heap w2 !! a = Some ca).
    { cbn. rewrite lookup_insert_ne by congruence. apply lookup_insert_eq. }
    assert (Hcb : heap w2 !! b = Some cb) by (cbn; apply lookup_insert_eq).
    destruct (fit_cases torch a X y w2 ca Hca)
      as [[e He] | (o & n & m & s & _ & _ & _ & _ & Hok)].
    - rewrite He in Hfit. injection Hfit as <- <-. exact Hcb.
    - rewrite Hok in Hfit. injection Hfit as <- <-.
      cbn [heap set_heap]. rewrite lookup_insert_ne by congruence. exact Hcb. }
  split; [exact Hne|]. split; [exact Hlb|].
  unfold scheduler_of. rewrite Hlb. reflexivity.
Qed.

(** C4, as the code has it: when [T_0] and [T_mult] are at least 1 (an
    [int] at least 1 or a finite binary64 at least 1.0), the mapping holds an
    optimizer, and the schedule constructor accepts every optimizer with a
    restart length and a growth factor that are integers at least 1, [fit]
    succeeds, returns the reference [self] it was called on and leaves the
    scheduler field set. *)
Theorem fit_succeeds_from_one self X y w c o :
  (forall o' a b, 1 <= a -> 1 <= b -> is_ok (torch (VOptimizer o') a b) = true) ->
  heap w !! self = Some c ->
  X !! "optimizer" = Some (VOptimizer o) ->
  at_least_one (T_0 c) = true ->
  at_least_one (T_mult c) = true ->
  exists s,
    fit torch self X y w = (ok self, assigned self c s w) /\
    scheduler_of self (snd (fit torch self X y w)) = Some s /\
    scheduler_of self (snd (fit torch self X y w)) <> None.
Proof.
  intros Hlib Hc Ho H0 Hm.
  destruct (py_int_at_least_one (T_0 c) H0) as (a & Ha & Ha1).
  destruct (py_int_at_least_one (T_mult c) Hm) as (b & Hb & Hb1).
  specialize (Hlib o a b Ha1 Hb1).
  destruct (torch (VOptimizer o) a b) as [|s] eqn:Hs; [discriminate|].
  exists s.
  rewrite (fit_ok torch self X y w c o a b s Hc Ho Ha Hb Hs); cbn [snd].
  rewrite scheduler_of_assigned. repeat split. discriminate.
Qed.

End Further.

(** * The further properties on concrete inputs *)

Lemma fit_raise_world_unchanged_witness :
  snd (fit torch_constructor 1%positive (deps 7) VNone (world_with (NInt 0) (NInt 2)))
  = world_with (NInt 0) (NInt 2).
Proof.
  apply (fit_raise_world_unchanged torch_constructor 1%positive (deps 7) VNone
           (world_with (NInt 0) (NInt 2)) ValueError).
  reflexivity.
Defined.

Lemma fit_nonfinite_hyperparameter_witness :
  fit torch_constructor 1%positive (deps 7) VNone
    (world_with (NFloat S754_nan) (NInt 2))
  = (raise ValueError, world_with (NFloat S754_nan) (NInt 2)) /\
  fit torch_constructor 1%positive (deps 7) VNone
    (world_with (NInt 5) (NFloat (S754_infinity false)))
  = (raise OverflowError, world_with (NInt 5) (NFloat (S754_infinity false))).
Proof.
  split.
  - destruct (fit_nonfinite_hyperparameter torch_constructor 1%positive (deps 7) VNone
                (world_with (NFloat S754_nan) (NInt 2))
                (unfit (NFloat S754_nan) (NInt 2)) 7%positive)
      as (Hnan & _ & _); [reflexivity | reflexivity |].
    apply Hnan. reflexivity.
  - destruct (fit_nonfinite_hyperparameter torch_constructor 1%positive (deps 7) VNone
                (world_with (NInt 5) (NFloat (S754_infinity false)))
                (unfit (NInt 5) (NFloat (S754_infinity false))) 7%positive)
      as (_ & _ & Hmult); [reflexivity | reflexivity |].
    destruct (Hmult 5) as [_ Hinf]; [reflexivity|].
    apply (Hinf false). reflexivity.
Defined.

Lemma fit_all_last_write_wins_witness :
  fit torch_constructor 1%positive (deps 8) VNone (world_with (NInt 5) (NInt 2))
  = (ok 1%positive,
     snd (fit_all torch_constructor 1%positive
            ([(deps 7, VNone); (bad_deps, VNone)] ++ [(deps 8, VNone)])
            (world_with (NInt 5) (NInt 2)))).
Proof.
  apply (fit_all_last_write_wins torch_constructor 1%positive
           [(deps 7, VNone); (bad_deps, VNone)] (deps 8) VNone
           (world_with (NInt 5) (NInt 2)) (unfit (NInt 5) (NInt 2))
           [ok 1%positive; raise MissingDependencyError; ok 1%positive]);
    reflexivity.
Defined.

Lemma fit_default_range_T_mult_witness :
  scheduler_of 1%positive
    (snd (fit torch_constructor 1%positive (deps 7) VNone
            (world_with (NInt 5) (NFloat float_2_0))))
  = Some {| sched_optimizer := 7; sched_T_0 := 5; sched_T_mult := 2 |}.
Proof.
  destruct (fit_default_range_T_mult torch_constructor float_2_0 1%positive
              (deps 7) VNone (world_with (NInt 5) (NFloat float_2_0))
              (unfit (NInt 5) (NFloat float_2_0)) (VOptimizer 7) 1%positive
              (snd (fit torch_constructor 1%positive (deps 7) VNone
                      (world_with (NInt 5) (NFloat float_2_0)))))
    as (a & s & Ha & Hsched & Hs);
    [reflexivity | reflexivity | reflexivity | reflexivity | reflexivity
     | reflexivity | reflexivity |].
  injection Ha as <-.
  destruct Hs as [Hs | [_ Hs]]; vm_compute in Hs; injection Hs as <-.
  - vm_compute in Hsched. discriminate.
  - exact Hsched.
Defined.

Lemma instances_independent_witness :
  scheduler_of 2%positive
    (snd (fit torch_constructor 1%positive (deps 7) VNone
            (snd (__init__ (NInt 3) (NFloat float_1_5) None
                    (world_with (NInt 5) (NInt 2))))))
  = None.
Proof.
  apply (instances_independent torch_constructor
           (NInt 5) (NInt 2) None (NInt 3) (NFloat float_1_5) None
           empty_world 1%positive (world_with (NInt 5) (NInt 2))
           2%positive
           (snd (__init__ (NInt 3) (NFloat float_1_5) None
                   (world_with (NInt 5) (NInt 2))))
           (deps 7) VNone (ok 1%positive)
           (snd (fit torch_constructor 1%positive (deps 7) VNone
                   (snd (__init__ (NInt 3) (NFloat float_1_5) None
                           (world_with (NInt 5) (NInt 2)))))));
    reflexivity.
Defined.

Lemma fit_depends_only_on_witness :
  fst (fit torch_constructor 1%positive (deps 7) VNone (world_with (NInt 5) (NInt 2)))
  = fst (fit torch_constructor 1%positive
           (<["budget" := VNum (NInt 3)]> (deps 7)) (VStr "labels")
           (snd (__init__ (NInt 5) (NInt 2) (Some (VObject 3)) empty_world))).
Proof.
  apply (fit_depends_only_on torch_constructor check_requirements 1%positive
           (deps 7) VNone (world_with (NInt 5) (NInt 2)) (unfit (NInt 5) (NInt 2))
           (<["budget" := VNum (NInt 3)]> (deps 7)) (VStr "labels")
           (snd (__init__ (NInt 5) (NInt 2) (Some (VObject 3)) empty_world))
           {| T_0 := NInt 5; T_mult := NInt 2; random_state := VObject 3;
              scheduler := None |});
    reflexivity.
Defined.

(** ** [fit] and the hyperparameters the schedule accepts *)

(** C4 as stated fails: [T_0 = 5] with the positive real [T_mult = 0.5] and
    an optimizer in the mapping make [fit] raise, since [int(0.5)] is 0 and
    the schedule refuses a growth factor below 1; the scheduler stays
    unset. *)
Lemma fit_raises_on_T_mult_below_one :
  is_binary64 float_0_5 = true /\
  float_lt float_0_0 float_0_5 = true /\
  py_int (NFloat float_0_5) = ok 0 /\
  fit torch_constructor 1%positive (deps 7) VNone
    (world_with (NInt 5) (NFloat float_0_5))
  = (raise ValueError, world_with (NInt 5) (NFloat float_0_5)) /\
  scheduler_of 1%positive
    (snd (fit torch_constructor 1%positive (deps 7) VNone
            (world_with (NInt 5) (NFloat float_0_5))))
  = None.
Proof. repeat split; reflexivity. Qed.

Lemma fit_succeeds_from_one_witness :
  exists s,
    fit torch_constructor 1%positive (deps 7) VNone
      (world_with (NInt 5) (NFloat float_1_5))
    = (ok 1%positive,
       set_heap (<[1%positive := with_scheduler (Some s)
                                   (unfit (NInt 5) (NFloat float_1_5))]>
                   (heap (world_with (NInt 5) (NFloat float_1_5))))
         (world_with (NInt 5) (NFloat float_1_5))).
Proof.
  destruct (fit_succeeds_from_one torch_constructor 1%positive (deps 7) VNone
              (world_with (NInt 5) (NFloat float_1_5))
              (unfit (NInt 5) (NFloat float_1_5)) 7%positive)
    as (s & Hfit & _); [| reflexivity | reflexivity | reflexivity | reflexivity |].
  - intros o a b Ha Hb. unfold torch_constructor.
    destruct (Z.leb_spec a 0); [lia|]. destruct (Z.ltb_spec b 1); [lia|].
    reflexivity.
  - exists s. exact Hfit.
Defined.
